(** * The calculator tool server and its client agent

    A shallow embedding of [mcp_calculator_server.py] (four arithmetic
    handlers registered as tools, each writing to a process-wide logger) and
    of [crew.py] (a client that connects, lists the tools and starts a crew),
    followed by the properties proved about them. *)

From Stdlib Require Import ZArith List String Ascii Bool Lia.
From Stdlib Require Import Floats.
Import ListNotations.

Local Open Scope string_scope.
Local Open Scope list_scope.
Local Open Scope Z_scope.

(** ** Python values *)

Module Py.

(** The two numeric types the handlers are annotated with. *)
Inductive pytype : Type :=
| TInt
| TFloat.

(** A Python [int] is unbounded, a Python [float] is an IEEE binary64. *)
Inductive value : Type :=
| VInt (z : Z)
| VFloat (f : float)
| VStr (s : string)
| VStrList (l : list string).

Definition denote (t : pytype) : Type :=
  match t with
  | TInt => Z
  | TFloat => float
  end.

Definition inject (t : pytype) : denote t -> value :=
  match t with
  | TInt => VInt
  | TFloat => VFloat
  end.

Definition project (t : pytype) (v : value) : option (denote t) :=
  match t, v with
  | TInt, VInt z => Some z
  | TFloat, VFloat f => Some f
  | _, _ => None
  end.



(** An f-string: literal text and [{expr}] fields, kept unrendered. *)
Inductive fragment : Type :=
| Lit (s : string)
| Fmt (v : value).

Definition fstring : Type := list fragment.

(** Exception classes; only some derive from [Exception]. *)
Inductive exn_class : Type :=
| ValueError
| TypeError
| RuntimeError
| ConnectionError
| ToolError
| KeyboardInterrupt
| SystemExit.

Definition is_Exception (c : exn_class) : bool :=
  match c with
  | KeyboardInterrupt | SystemExit => false
  | _ => true
  end.

Record exn : Type := mkExn { exn_cls : exn_class; exn_msg : string }.

(** What a call hands back to its caller. *)
Inductive outcome (A : Type) : Type :=
| Returned (a : A)
| Raised (e : exn).

Arguments Returned {A} a.
Arguments Raised {A} e.

Definition is_returned {A} (o : outcome A) : bool :=
  match o with
  | Returned _ => true
  | Raised _ => false
  end.

End Py.

Import Py.

(** ** The logger *)

Module Logging.

Inductive level : Type :=
| DEBUG
| INFO
| WARNING
| ERROR.

Definition levelno (l : level) : Z :=
  match l with
  | DEBUG => 10
  | INFO => 20
  | WARNING => 30
  | ERROR => 40
  end.

Record log_record : Type := mkRecord {
  rec_logger : string;
  rec_level : level;
  rec_message : fstring
}.

(** [logging.basicConfig(level=logging.INFO, ...)] *)
Definition root_level : level := INFO.

(** [logger = logging.getLogger("mcp-server")]: no level of its own, so the
    root's level decides. *)
Definition logger_name : string := "mcp-server".

Definition isEnabledFor (l : level) : bool :=
  levelno root_level <=? levelno l.

(** The records emitted so far, oldest first. *)
Definition log : Type := list log_record.

Definition info (msg : fstring) (lg : log) : log :=
  if isEnabledFor INFO then lg ++ [mkRecord logger_name INFO msg] else lg.

End Logging.

Import Logging.

(** ** Handler programs

    A handler body is a sequence of [logger.info] calls that ends in a
    [return] or a [raise]. *)

Inductive prog (A : Type) : Type :=
| Ret (a : A)
| Raise (e : exn)
| LogInfo (msg : fstring) (k : prog A).

Arguments Ret {A} a.
Arguments Raise {A} e.
Arguments LogInfo {A} msg k.

Fixpoint run {A} (p : prog A) (lg : log) : outcome A * log :=
  match p with
  | Ret a => (Returned a, lg)
  | Raise e => (Raised e, lg)
  | LogInfo msg k => run k (info msg lg)
  end.

(** The records a program writes, in order. *)
Fixpoint emitted {A} (p : prog A) : list fstring :=
  match p with
  | Ret _ | Raise _ => []
  | LogInfo msg k => msg :: emitted k
  end.

Fixpoint prog_map {A B} (f : A -> B) (p : prog A) : prog B :=
  match p with
  | Ret a => Ret (f a)
  | Raise e => Raise e
  | LogInfo msg k => LogInfo msg (prog_map f k)
  end.

(** ** mcp_calculator_server.py *)

Module Server.

Definition add_numbers (a b : Z) : prog Z :=
  LogInfo [Lit "Tool called: add_numbers | a="; Fmt (VInt a);
           Lit ", b="; Fmt (VInt b)]
  (let result := a + b in
   LogInfo [Lit "Tool completed: add_numbers | result="; Fmt (VInt result)]
   (Ret result)).

Definition subtract_numbers (a b : Z) : prog Z :=
  LogInfo [Lit "Tool called: subtract_numbers | a="; Fmt (VInt a);
           Lit ", b="; Fmt (VInt b)]
  (let result := a - b in
   LogInfo [Lit "Tool completed: subtract_numbers | result="; Fmt (VInt result)]
   (Ret result)).

Definition multiply_numbers (a b : Z) : prog Z :=
  LogInfo [Lit "Tool called: multiply_numbers | a="; Fmt (VInt a);
           Lit ", b="; Fmt (VInt b)]
  (let result := a * b in
   LogInfo [Lit "Tool completed: multiply_numbers | result="; Fmt (VInt result)]
   (Ret result)).

Definition divide_numbers (a b : float) : prog float :=
  if PrimFloat.eqb b 0%float then
    Raise (mkExn ValueError "Cannot divide by zero")
  else
    LogInfo [Lit "Tool called: divide_numbers | a="; Fmt (VFloat a);
             Lit ", b="; Fmt (VFloat b)]
    (let result := PrimFloat.div a b in
     LogInfo [Lit "Tool completed: divide_numbers | result="; Fmt (VFloat result)]
     (Ret result)).

(** *** The tool registry

    [mcp = FastMCP("calculator-server")] starts with no tool; each
    [@mcp.tool()] registers the function it decorates under the function's
    own name, with the signature read off its annotations. *)

Fixpoint fn_type (ps : list pytype) (R : Type) : Type :=
  match ps with
  | [] => R
  | p :: ps' => denote p -> fn_type ps' R
  end.

Record tool : Type := mkTool {
  tool_name : string;
  tool_params : list (string * pytype);
  tool_return : pytype;
  tool_fn : fn_type (map snd tool_params) (prog (denote tool_return))
}.

Definition registry : Type := list tool.

Definition FastMCP (server_name : string) : registry := [].

Definition has_tool (n : string) (reg : registry) : bool :=
  existsb (fun t => String.eqb (tool_name t) n) reg.

(** A name registered twice keeps its first tool. *)
Definition add_tool (t : tool) (reg : registry) : registry :=
  if has_tool (tool_name t) reg then reg else reg ++ [t].

Definition add_numbers_tool : tool :=
  mkTool "add_numbers" [("a", TInt); ("b", TInt)] TInt add_numbers.

Definition subtract_numbers_tool : tool :=
  mkTool "subtract_numbers" [("a", TInt); ("b", TInt)] TInt subtract_numbers.

Definition multiply_numbers_tool : tool :=
  mkTool "multiply_numbers" [("a", TInt); ("b", TInt)] TInt multiply_numbers.

Definition divide_numbers_tool : tool :=
  mkTool "divide_numbers" [("a", TFloat); ("b", TFloat)] TFloat divide_numbers.

Definition mcp : registry :=
  add_tool divide_numbers_tool
    (add_tool multiply_numbers_tool
      (add_tool subtract_numbers_tool
        (add_tool add_numbers_tool (FastMCP "calculator-server")))).


(** Binding positional arguments to a signature.  Too few or too many
    arguments do not bind.  Values are taken at the annotated type; the
    conversions a validating front end may apply to values of another type
    are not modelled, such values do not bind. *)
Fixpoint bind_args (ps : list pytype) {R : Type}
  : fn_type ps R -> list value -> option R :=
  match ps with
  | [] => fun f args =>
      match args with
      | [] => Some f
      | _ :: _ => None
      end
  | p :: ps' => fun f args =>
      match args with
      | [] => None
      | v :: vs =>
          match project p v with
          | Some x => bind_args ps' (f x) vs
          | None => None
          end
      end
  end.

Definition invoke (t : tool) (args : list value) : prog value :=
  match bind_args (map snd (tool_params t)) (tool_fn t) args with
  | Some p => prog_map (inject (tool_return t)) p
  | None => Raise (mkExn ToolError ("Invalid arguments for " ++ tool_name t)%string)
  end.

Definition find_tool (n : string) (reg : registry) : option tool :=
  find (fun t => String.eqb (tool_name t) n) reg.

Definition call_tool (reg : registry) (n : string) (args : list value)
  : prog value :=
  match find_tool n reg with
  | Some t => invoke t args
  | None => Raise (mkExn ToolError ("Unknown tool: " ++ n)%string)
  end.

End Server.

(** ** Invocations in flight together

    Several invocations served at once share nothing but the logger.  One
    step of an invocation is one [logger.info] call; a schedule names, step
    after step, the invocation that moves. *)

Module Pool.





(** The outcome an invocation has when it runs alone. *)
Definition result {A} (p : prog A) : outcome A := fst (run p []).



End Pool.

(** ** crew.py *)

Module Client.

Definition nl : string := String "010"%char EmptyString.

Record params : Type := mkParams { url : string; transport : string }.

Definition server_params : params :=
  mkParams "http://localhost:8000/sse" "sse".

(** A tool as the adapter hands it to the client. *)
Record remote_tool : Type := mkRemote { name : string }.

Record Agent : Type := mkAgent {
  role : string;
  goal : string;
  backstory : string;
  agent_tools : list remote_tool;
  reasoning : bool;
  agent_verbose : bool
}.

Record Task : Type := mkTask {
  description : string;
  expected_output : string;
  agent : Agent;
  markdown : bool
}.

Inductive Process : Type :=
| sequential
| hierarchical.

Record Crew : Type := mkCrew {
  agents : list Agent;
  tasks : list Task;
  crew_verbose : bool;
  process : Process
}.

(** What lies outside the script: opening the adapter (reaching the server
    and discovering its tools) and running a crew.  Either may raise. *)
Record world : Type := mkWorld {
  adapter_enter : params -> outcome (list remote_tool);
  kickoff : Crew -> outcome string
}.

(** What the script does that can be seen from outside it. *)
Inductive event : Type :=
| Connect (p : params)
| Disconnect
| Kickoff (c : Crew)
| Print (line : fstring).

Inductive exit_status : Type :=
| ExitClean
| Uncaught (e : exn).

Definition calculator_agent (tools : list remote_tool) : Agent :=
  mkAgent
    "Mathematical Calculator"
    "Perform mathematical calculations using the MCP calculator server tools."
    "An AI agent specialized in performing arithmetic operations through remote calculator tools. Can add, subtract, multiply, and divide numbers accurately."
    tools true true.

Definition indent : string := "            ".

Definition calculator_task (tools : list remote_tool) : Task :=
  mkTask
    (nl ++ indent ++ "Perform the following calculations using the available calculator tools:"
     ++ nl ++ indent ++ "1. Add 15 and 27"
     ++ nl ++ indent ++ "2. Subtract 10 from 50"
     ++ nl ++ indent ++ "3. Multiply 8 by 6"
     ++ nl ++ indent ++ "4. Divide 100 by 4"
     ++ nl ++ indent
     ++ nl ++ indent ++ "Report all results clearly."
     ++ nl ++ indent)%string
    "A detailed report showing the results of all four mathematical operations with clear explanations."
    (calculator_agent tools) true.

Definition calculator_crew (tools : list remote_tool) : Crew :=
  mkCrew [calculator_agent tools] [calculator_task tools] true sequential.

(** Truth value of a list: empty is false. *)
Definition truthy {A} (l : list A) : bool :=
  match l with
  | [] => false
  | _ :: _ => true
  end.

(** The body of the [with] statement. *)
Definition with_body (w : world) (tools : list remote_tool)
  : list event * outcome unit :=
  let listing :=
    Print [Lit "Available tools from SSE MCP server: ";
           Fmt (VStrList (map name tools))] in
  if truthy tools then
    match kickoff w (calculator_crew tools) with
    | Returned result =>
        ([listing; Kickoff (calculator_crew tools);
          Print [Lit (nl ++ "Calculator Crew Task Result:" ++ nl)%string;
                 Lit " "; Fmt (VStr result)]],
         Returned tt)
    | Raised e => ([listing; Kickoff (calculator_crew tools)], Raised e)
    end
  else
    ([listing;
      Print [Lit "Skipping crew kickoff as tools were not loaded (check server connection)."]],
     Returned tt).

(** The [with] statement: the adapter is left on every way out of the
    body; a failure to enter it runs no body. *)
Definition with_adapter (w : world) : list event * outcome unit :=
  match adapter_enter w server_params with
  | Raised e => ([Connect server_params], Raised e)
  | Returned tools =>
      let (tr, o) := with_body w tools in
      (Connect server_params :: tr ++ [Disconnect], o)
  end.

(** The handler of [except Exception as e]. *)
Definition report (e : exn) : list event :=
  [Print [Lit "Error connecting to or using Calculator MCP server: ";
          Fmt (VStr (exn_msg e))];
   Print [Lit "Ensure the MCP Calculator server is running and accessible at http://localhost:8000/sse"]].

Definition main (w : world) : list event * exit_status :=
  let (tr, o) := with_adapter w in
  match o with
  | Returned _ => (tr, ExitClean)
  | Raised e =>
      if is_Exception (exn_cls e) then (tr ++ report e, ExitClean)
      else (tr, Uncaught e)
  end.

Definition is_kickoff (ev : event) : bool :=
  match ev with
  | Kickoff _ => true
  | _ => false
  end.

Definition prints (tr : list event) : list fstring :=
  flat_map (fun ev => match ev with Print l => [l] | _ => [] end) tr.

End Client.

(** ** Vocabulary of the properties *)

Module Spec.

Import Server.






End Spec.

(** ** The server's start-up banner *)

Module Startup.

Import Server.

Fixpoint repeat_string (s : string) (n : nat) : string :=
  match n with
  | O => EmptyString
  | S n' => (s ++ repeat_string s n')%string
  end.

(** ["="*70] *)
Definition rule : string := repeat_string "=" 70.

(** The lines printed before the server starts, one per [print]. *)
Definition banner : list string :=
  [rule;
   "🧮 MCP Calculator Server (SSE Transport)";
   rule;
   EmptyString;
   "✅ Using FastMCP with SSE over HTTP";
   "📡 Server running on: http://localhost:8000";
   EmptyString;
   "🔧 Available Tools:";
   "  • add_numbers(a, b)";
   "  • subtract_numbers(a, b)";
   "  • multiply_numbers(a, b)";
   "  • divide_numbers(a, b)";
   EmptyString;
   "💡 This is a proper MCP server with SSE transport!";
   "   Can be used with CrewAI MCPServerAdapter";
   EmptyString;
   "Press Ctrl+C to stop";
   rule;
   EmptyString].

(** How the banner writes a tool: its name and the names of its
    parameters. *)
Definition advertised (t : tool) : string :=
  ("  • " ++ tool_name t ++ "("
     ++ String.concat ", " (map fst (tool_params t)) ++ ")")%string.

Definition is_tool_line (l : string) : bool := String.prefix "  • " l.

End Startup.

(** ** Vocabulary of the client's traces *)

Module Trace.

Import Client.

Definition is_connect (ev : event) : bool :=
  match ev with
  | Connect _ => true
  | _ => false
  end.

Definition is_disconnect (ev : event) : bool :=
  match ev with
  | Disconnect => true
  | _ => false
  end.

Definition is_print (ev : event) : bool :=
  match ev with
  | Print _ => true
  | _ => false
  end.

(** The line that lists the discovered tools. *)
Definition listing (tools : list remote_tool) : fstring :=
  [Lit "Available tools from SSE MCP server: ";
   Fmt (VStrList (map name tools))].

(** The line that shows what the crew returned. *)
Definition result_line (r : string) : fstring :=
  [Lit (nl ++ "Calculator Crew Task Result:" ++ nl)%string;
   Lit " "; Fmt (VStr r)].

Definition skip_line : fstring :=
  [Lit "Skipping crew kickoff as tools were not loaded (check server connection)."].

(** The tools every agent of a crew was given. *)
Definition crew_tools (c : Crew) : list (list remote_tool) :=
  map agent_tools (agents c).

End Trace.

(** * Properties *)

Import Server Spec Pool Client.

(** ** Running a program *)

Section RunFacts.

Context {A : Type}.




Lemma emitted_prog_map {B} (f : A -> B) (p : prog A) :
  emitted (prog_map f p) = emitted p.
Proof. induction p; simpl; congruence. Qed.

End RunFacts.

(** ** Pools of invocations *)

Section PoolFacts.

Context {A : Type}.











End PoolFacts.

(** ** Binding arguments *)





(** ** The server's tools *)


(** ** Results of the four operations *)

(** The four calls of the client's task. *)
Example add_15_27 :
  run (add_numbers 15 27) [] =
    (Returned 42,
     [mkRecord "mcp-server" INFO
        [Lit "Tool called: add_numbers | a="; Fmt (VInt 15);
         Lit ", b="; Fmt (VInt 27)];
      mkRecord "mcp-server" INFO
        [Lit "Tool completed: add_numbers | result="; Fmt (VInt 42)]]).
Proof. reflexivity. Qed.

Example subtract_50_10 : result (subtract_numbers 50 10) = Returned 40.
Proof. reflexivity. Qed.

Example multiply_8_6 : result (multiply_numbers 8 6) = Returned 48.
Proof. reflexivity. Qed.

Example divide_100_4 :
  result (call_tool mcp "divide_numbers" [VFloat 100%float; VFloat 4%float])
    = Returned (VFloat 25%float).
Proof. reflexivity. Qed.

Example divide_nan :
  result (divide_numbers 1%float nan) = Returned nan.
Proof. reflexivity. Qed.

Example unknown_tool :
  result (call_tool mcp "power" [VInt 2; VInt 3])
    = Raised (mkExn ToolError "Unknown tool: power").
Proof. reflexivity. Qed.

Example three_arguments :
  is_returned (result (call_tool mcp "add_numbers" [VInt 1; VInt 2; VInt 3]))
    = false.
Proof. reflexivity. Qed.


Lemma divide_nonzero (a b : float) :
  PrimFloat.eqb b 0%float = false ->
  divide_numbers a b =
    LogInfo [Lit "Tool called: divide_numbers | a="; Fmt (VFloat a);
             Lit ", b="; Fmt (VFloat b)]
      (LogInfo [Lit "Tool completed: divide_numbers | result=";
                Fmt (VFloat (PrimFloat.div a b))]
         (Ret (PrimFloat.div a b))).
Proof. intros H. unfold divide_numbers. now rewrite H. Qed.

Lemma divide_zero (a b : float) :
  PrimFloat.eqb b 0%float = true ->
  divide_numbers a b = Raise (mkExn ValueError "Cannot divide by zero").
Proof. intros H. unfold divide_numbers. now rewrite H. Qed.

(** C2. divide(100, 4) is 25.0, and for every float [a] and every float
    [b] that does not compare equal to zero, divide returns the binary64
    quotient of [a] by [b], both when the handler is called and when the tool
    is invoked by name. *)
Theorem divide_correct :
  fst (run (divide_numbers 100%float 4%float) []) = Returned 25%float /\
  forall (a b : float) (lg : log),
    PrimFloat.eqb b 0%float = false ->
    fst (run (divide_numbers a b) lg) = Returned (PrimFloat.div a b) /\
    fst (run (call_tool mcp "divide_numbers" [VFloat a; VFloat b]) lg)
      = Returned (VFloat (PrimFloat.div a b)).
Proof.
  split; [reflexivity |].
  intros a b lg Hb.
  assert (E : call_tool mcp "divide_numbers" [VFloat a; VFloat b]
              = prog_map VFloat (divide_numbers a b)) by reflexivity.
  rewrite E, (divide_nonzero a b Hb). split; reflexivity.
Qed.

Lemma divide_correct_witness :
  fst (run (divide_numbers 1%float 8%float) []) = Returned 0.125%float /\
  fst (run (call_tool mcp "divide_numbers" [VFloat 1%float; VFloat 8%float]) [])
    = Returned (VFloat 0.125%float).
Proof. exact (proj2 divide_correct 1%float 8%float [] eq_refl). Defined.

(** C3. For every [a], divide with a second argument that compares equal
    to zero (0.0 and -0.0) raises the error "Cannot divide by zero": the
    caller gets the raised error and no numeric result, also when the tool
    is invoked by name. *)
Theorem divide_by_zero_fails (a b : float) (lg : log) :
  PrimFloat.eqb b 0%float = true ->
  fst (run (divide_numbers a b) lg)
    = Raised (mkExn ValueError "Cannot divide by zero") /\
  (forall q : float, fst (run (divide_numbers a b) lg) <> Returned q) /\
  is_returned
    (fst (run (call_tool mcp "divide_numbers" [VFloat a; VFloat b]) lg)) = false.
Proof.
  intros Hb.
  assert (E : call_tool mcp "divide_numbers" [VFloat a; VFloat b]
              = prog_map VFloat (divide_numbers a b)) by reflexivity.
  rewrite E, (divide_zero a b Hb). simpl.
  repeat split; intros; discriminate.
Qed.

Lemma divide_by_zero_fails_witness :
  fst (run (divide_numbers 7%float 0%float) [])
    = Raised (mkExn ValueError "Cannot divide by zero") /\
  fst (run (divide_numbers 7%float (-0)%float) [])
    = Raised (mkExn ValueError "Cannot divide by zero").
Proof.
  split.
  - exact (proj1 (divide_by_zero_fails 7%float 0%float [] eq_refl)).
  - exact (proj1 (divide_by_zero_fails 7%float (-0)%float [] eq_refl)).
Defined.


(** ** Logging *)

(** C8. A divide whose second argument compares equal to zero raises
    before it writes anything: the raise is the whole body, no record is
    emitted and the log after the call is the log before it. *)
Theorem divide_by_zero_log_untouched (a b : float) (lg : log) :
  PrimFloat.eqb b 0%float = true ->
  emitted (divide_numbers a b) = [] /\
  run (divide_numbers a b) lg
    = (Raised (mkExn ValueError "Cannot divide by zero"), lg).
Proof.
  intros Hb. rewrite (divide_zero a b Hb). split; reflexivity.
Qed.

Lemma divide_by_zero_log_untouched_witness :
  run (divide_numbers 3%float 0%float)
      [mkRecord logger_name INFO [Lit "earlier"]]
    = (Raised (mkExn ValueError "Cannot divide by zero"),
       [mkRecord logger_name INFO [Lit "earlier"]]).
Proof.
  exact (proj2 (divide_by_zero_log_untouched 3%float 0%float
                  [mkRecord logger_name INFO [Lit "earlier"]] eq_refl)).
Defined.




(** ** Purity *)


(** ** The client *)

(** C5. When entering the adapter raises an error (the server cannot be
    reached, or its tools cannot be discovered), the client prints the
    error with the advice to check the server, never starts the crew, so no
    tool call is issued, and ends cleanly. *)
Theorem connection_failure_reported (w : world) (e : exn) :
  adapter_enter w server_params = Raised e ->
  is_Exception (exn_cls e) = true ->
  main w = (Connect server_params :: report e, ExitClean) /\
  existsb is_kickoff (fst (main w)) = false /\
  prints (fst (main w)) =
    [[Lit "Error connecting to or using Calculator MCP server: ";
      Fmt (VStr (exn_msg e))];
     [Lit "Ensure the MCP Calculator server is running and accessible at http://localhost:8000/sse"]].
Proof.
  intros Henter Hexc.
  assert (E : main w = (Connect server_params :: report e, ExitClean)).
  { unfold main, with_adapter. rewrite Henter, Hexc. reflexivity. }
  rewrite E. repeat split.
Qed.

Lemma connection_failure_reported_witness :
  main (mkWorld (fun _ => Raised (mkExn ConnectionError "All connection attempts failed"))
                (fun _ => Returned "unused"))
  = (Connect server_params
       :: report (mkExn ConnectionError "All connection attempts failed"),
     ExitClean).
Proof.
  exact (proj1 (connection_failure_reported
    (mkWorld (fun _ => Raised (mkExn ConnectionError "All connection attempts failed"))
             (fun _ => Returned "unused"))
    (mkExn ConnectionError "All connection attempts failed") eq_refl eq_refl)).
Defined.

(** C10. When the adapter is entered and hands over no tool, the client
    prints the empty list of tools and the skip message, does not start the
    crew, leaves the adapter and ends cleanly. *)
Theorem empty_tool_list_skips_kickoff (w : world) :
  adapter_enter w server_params = Returned [] ->
  main w =
    ([Connect server_params;
      Print [Lit "Available tools from SSE MCP server: "; Fmt (VStrList [])];
      Print [Lit "Skipping crew kickoff as tools were not loaded (check server connection)."];
      Disconnect],
     ExitClean) /\
  existsb is_kickoff (fst (main w)) = false.
Proof.
  intros Henter.
  assert (E : main w =
    ([Connect server_params;
      Print [Lit "Available tools from SSE MCP server: "; Fmt (VStrList [])];
      Print [Lit "Skipping crew kickoff as tools were not loaded (check server connection)."];
      Disconnect],
     ExitClean)).
  { unfold main, with_adapter. rewrite Henter. reflexivity. }
  rewrite E. split; reflexivity.
Qed.

Lemma empty_tool_list_skips_kickoff_witness :
  existsb is_kickoff
    (fst (main (mkWorld (fun _ => Returned [])
                        (fun _ => Raised (mkExn RuntimeError "unused")))))
  = false.
Proof.
  exact (proj2 (empty_tool_list_skips_kickoff
    (mkWorld (fun _ => Returned [])
             (fun _ => Raised (mkExn RuntimeError "unused"))) eq_refl)).
Defined.

(** * Further properties of the server *)

Import Startup Trace.

(** ** Looking a tool up *)

Lemma mcp_tools :
  mcp = [add_numbers_tool; subtract_numbers_tool;
         multiply_numbers_tool; divide_numbers_tool].
Proof. reflexivity. Qed.

Lemma find_tool_mcp (n : string) :
  find_tool n mcp =
    if String.eqb "add_numbers" n then Some add_numbers_tool
    else if String.eqb "subtract_numbers" n then Some subtract_numbers_tool
    else if String.eqb "multiply_numbers" n then Some multiply_numbers_tool
    else if String.eqb "divide_numbers" n then Some divide_numbers_tool
    else None.
Proof. reflexivity. Qed.

(** The ways a lookup in the registry can go. *)
Lemma find_tool_cases (n : string) :
  (n = "add_numbers" /\ find_tool n mcp = Some add_numbers_tool) \/
  (n = "subtract_numbers" /\ find_tool n mcp = Some subtract_numbers_tool) \/
  (n = "multiply_numbers" /\ find_tool n mcp = Some multiply_numbers_tool) \/
  (n = "divide_numbers" /\ find_tool n mcp = Some divide_numbers_tool) \/
  (~ In n (map tool_name mcp) /\ find_tool n mcp = None).
Proof.
  rewrite find_tool_mcp.
  destruct (String.eqb "add_numbers" n) eqn:E1;
    [apply String.eqb_eq in E1; subst n; auto |].
  destruct (String.eqb "subtract_numbers" n) eqn:E2;
    [apply String.eqb_eq in E2; subst n; auto |].
  destruct (String.eqb "multiply_numbers" n) eqn:E3;
    [apply String.eqb_eq in E3; subst n; auto |].
  destruct (String.eqb "divide_numbers" n) eqn:E4;
    [apply String.eqb_eq in E4; subst n; auto 6 |].
  do 4 right. split; [| reflexivity].
  apply String.eqb_neq in E1, E2, E3, E4.
  rewrite mcp_tools. simpl. intuition congruence.
Qed.

(** X10. The names in the registry are pairwise distinct, and a lookup by
    name answers with a tool exactly when that tool is registered under
    that name; a name outside the registry finds nothing, and calling it
    raises an error that carries the name and writes no log record. *)
Theorem lookup_by_name :
  NoDup (map tool_name mcp) /\
  (forall (n : string) (t : tool),
     find_tool n mcp = Some t <-> In t mcp /\ tool_name t = n) /\
  (forall (n : string) (args : list value) (lg : log),
     ~ In n (map tool_name mcp) ->
     run (call_tool mcp n args) lg
       = (Raised (mkExn ToolError ("Unknown tool: " ++ n)%string), lg)).
Proof.
  split; [| split].
  - rewrite mcp_tools. simpl.
    repeat constructor; simpl; intuition discriminate.
  - intros n t. split.
    + intros H.
      destruct (find_tool_cases n) as [[-> E] | [[-> E] | [[-> E] | [[-> E] | [_ E]]]]];
        rewrite E in H; inversion H; subst t; rewrite mcp_tools;
        simpl; auto 6.
    + intros [Hin <-]. rewrite mcp_tools in Hin. simpl in Hin.
      destruct Hin as [<- | [<- | [<- | [<- | []]]]]; reflexivity.
  - intros n args lg Hn. unfold call_tool.
    destruct (find_tool_cases n) as [[-> E] | [[-> E] | [[-> E] | [[-> E] | [_ E]]]]];
      try (exfalso; apply Hn; rewrite mcp_tools; simpl; auto 6; fail).
    rewrite E. reflexivity.
Qed.

Lemma lookup_by_name_witness :
  run (call_tool mcp "power_numbers" [VInt 2; VInt 10]) []
    = (Raised (mkExn ToolError "Unknown tool: power_numbers"), []).
Proof.
  apply (proj2 (proj2 lookup_by_name) "power_numbers" [VInt 2; VInt 10] []).
  rewrite mcp_tools. simpl. intuition discriminate.
Defined.

(** ** What a call leaves in the log *)







(** ** The log of a pool *)

Section PoolLog.

Context {A : Type}.



End PoolLog.


(** ** The banner *)

(** The tools the start-up banner lists are exactly the registered
    tools, in the order of their registration, each written with its name
    and the names of its parameters. *)
Example banner_lists_registry :
  filter is_tool_line banner = map advertised mcp.
Proof. reflexivity. Qed.

(** * Further properties of the client *)

(** The ways the script can go, by what entering the adapter and running
    the crew do. *)
Lemma main_paths (w : world) :
  match adapter_enter w server_params with
  | Raised e =>
      main w = if is_Exception (exn_cls e)
               then (Connect server_params :: report e, ExitClean)
               else ([Connect server_params], Uncaught e)
  | Returned [] =>
      main w = ([Connect server_params; Print (listing []); Print skip_line;
                 Disconnect], ExitClean)
  | Returned ((_ :: _) as tools) =>
      match kickoff w (calculator_crew tools) with
      | Returned r =>
          main w = ([Connect server_params; Print (listing tools);
                     Kickoff (calculator_crew tools); Print (result_line r);
                     Disconnect], ExitClean)
      | Raised e =>
          main w = if is_Exception (exn_cls e)
                   then ([Connect server_params; Print (listing tools);
                          Kickoff (calculator_crew tools); Disconnect]
                           ++ report e, ExitClean)
                   else ([Connect server_params; Print (listing tools);
                          Kickoff (calculator_crew tools); Disconnect],
                         Uncaught e)
      end
  end.
Proof.
  unfold main, with_adapter, with_body.
  destruct (adapter_enter w server_params) as [[| t ts] | e]; simpl.
  - reflexivity.
  - destruct (kickoff w (calculator_crew (t :: ts))) as [r | e]; simpl.
    + reflexivity.
    + destruct (is_Exception (exn_cls e)); reflexivity.
  - destruct (is_Exception (exn_cls e)); reflexivity.
Qed.

Ltac by_main_paths w :=
  let H := fresh "Hmain" in
  let e := fresh "e" in
  let r := fresh "r" in
  let t := fresh "t" in
  let ts := fresh "ts" in
  let Ea := fresh "Eenter" in
  let Ek := fresh "Ekick" in
  let Ex := fresh "Eexc" in
  pose proof (main_paths w) as H;
  destruct (adapter_enter w server_params) as [[| t ts] | e] eqn:Ea;
  [ | destruct (kickoff w (calculator_crew (t :: ts))) as [r | e] eqn:Ek;
      [ | destruct (is_Exception (exn_cls e)) eqn:Ex ]
    | destruct (is_Exception (exn_cls e)) eqn:Ex ];
  rewrite H; clear H.

(** X1. The crew is started exactly when the adapter was entered and
    handed over at least one tool, and then once only; the crew that is
    started is the one built over the discovered tools, whose single agent
    holds exactly these tools. *)
Theorem kickoff_iff_tools (w : world) :
  (existsb is_kickoff (fst (main w)) = true <->
   exists tools, adapter_enter w server_params = Returned tools /\ tools <> []) /\
  (List.length (filter is_kickoff (fst (main w))) <= 1)%nat /\
  (forall c : Crew,
     In (Kickoff c) (fst (main w)) ->
     exists tools,
       adapter_enter w server_params = Returned tools /\
       c = calculator_crew tools /\
       crew_tools c = [tools]).
Proof.
  by_main_paths w; simpl.
  - split; [split; [discriminate | intros (tools & E & Hne); congruence] |].
    split; [lia |]. intros c H. intuition discriminate.
  - split; [split; [intros _; exists (t :: ts); split; congruence | reflexivity] |].
    split; [lia |]. intros c [H | [H | [H | [H | [H | []]]]]]; try discriminate.
    inversion H. exists (t :: ts). repeat split.
  - split; [split; [intros _; exists (t :: ts); split; congruence | reflexivity] |].
    split; [lia |].
    intros c [H | [H | [H | [H | [H | [H | []]]]]]]; try discriminate.
    inversion H. exists (t :: ts). repeat split.
  - split; [split; [intros _; exists (t :: ts); split; congruence | reflexivity] |].
    split; [lia |]. intros c [H | [H | [H | [H | []]]]]; try discriminate.
    inversion H. exists (t :: ts). repeat split.
  - split; [split; [discriminate | intros (tools & E & Hne); discriminate] |].
    split; [lia |]. intros c H. intuition discriminate.
  - split; [split; [discriminate | intros (tools & E & Hne); discriminate] |].
    split; [lia |]. intros c H. intuition discriminate.
Qed.

(** X2. Once the adapter has been entered it is left exactly once, on
    every way out: the trace is the connection, then the events of the body
    (prints and at most the crew's run), then the disconnection, then
    nothing but prints.  When entering fails there is no disconnection.
    The client connects once and never again. *)
Theorem adapter_released (w : world) :
  (forall tools,
     adapter_enter w server_params = Returned tools ->
     exists body tail : list event,
       fst (main w) = Connect server_params :: body ++ Disconnect :: tail /\
       forallb (fun ev => is_print ev || is_kickoff ev) body = true /\
       forallb is_print tail = true) /\
  (forall e,
     adapter_enter w server_params = Raised e ->
     existsb is_disconnect (fst (main w)) = false) /\
  List.length (filter is_connect (fst (main w))) = 1%nat.
Proof.
  by_main_paths w; simpl.
  - split; [| split; [discriminate | reflexivity]]. intros tools _.
    exists [Print (listing []); Print skip_line], []. repeat split.
  - split; [| split; [discriminate | reflexivity]]. intros tools _.
    exists [Print (listing (t :: ts)); Kickoff (calculator_crew (t :: ts));
            Print (result_line r)], []. repeat split.
  - split; [| split; [discriminate | reflexivity]]. intros tools _.
    exists [Print (listing (t :: ts)); Kickoff (calculator_crew (t :: ts))],
           (report e). repeat split.
  - split; [| split; [discriminate | reflexivity]]. intros tools _.
    exists [Print (listing (t :: ts)); Kickoff (calculator_crew (t :: ts))], [].
    repeat split.
  - split; [discriminate |]. split; reflexivity.
  - split; [discriminate |]. split; reflexivity.
Qed.

(** X3. The script ends with an uncaught error exactly when entering the
    adapter, or the crew started over a non-empty list of tools, raises an
    error that does not derive from Exception; in every other case it ends
    cleanly. *)
Theorem uncaught_iff_not_Exception (w : world) (e : exn) :
  snd (main w) = Uncaught e <->
  is_Exception (exn_cls e) = false /\
  (adapter_enter w server_params = Raised e \/
   exists tools,
     tools <> [] /\
     adapter_enter w server_params = Returned tools /\
     kickoff w (calculator_crew tools) = Raised e).
Proof.
  by_main_paths w; simpl;
    (split;
     [ intros H; try discriminate H; inversion H; subst;
       (split; [assumption |]);
       first [ left; reflexivity
             | right; exists (t :: ts); repeat split; congruence ]
     | intros (Hexc & [H | (tools & Hne & Henter & Hk)]);
       try discriminate H; try discriminate Henter;
       try (inversion H; subst; congruence);
       try (inversion Henter; subst tools; try congruence;
            rewrite Ekick in Hk; inversion Hk; subst; congruence) ]).
Qed.

(** X4. When the crew's run raises an error that derives from Exception,
    the adapter is left first, then the error is printed in the wording of
    a connection failure with the error's own message, no result is
    printed, and the script ends cleanly. *)
Theorem kickoff_failure_reported (w : world) (tools : list remote_tool)
    (e : exn) :
  tools <> [] ->
  adapter_enter w server_params = Returned tools ->
  kickoff w (calculator_crew tools) = Raised e ->
  is_Exception (exn_cls e) = true ->
  main w =
    ([Connect server_params; Print (listing tools);
      Kickoff (calculator_crew tools); Disconnect;
      Print [Lit "Error connecting to or using Calculator MCP server: ";
             Fmt (VStr (exn_msg e))];
      Print [Lit "Ensure the MCP Calculator server is running and accessible at http://localhost:8000/sse"]],
     ExitClean).
Proof.
  intros Hne Henter Hk Hexc.
  pose proof (main_paths w) as H. rewrite Henter in H.
  destruct tools as [| t ts]; [congruence |].
  rewrite Hk, Hexc in H. exact H.
Qed.

Lemma kickoff_failure_reported_witness :
  snd (main (mkWorld (fun _ => Returned [mkRemote "add_numbers"])
                     (fun _ => Raised (mkExn RuntimeError "model unavailable"))))
    = ExitClean.
Proof.
  exact (f_equal snd
    (kickoff_failure_reported
       (mkWorld (fun _ => Returned [mkRemote "add_numbers"])
                (fun _ => Raised (mkExn RuntimeError "model unavailable")))
       [mkRemote "add_numbers"] (mkExn RuntimeError "model unavailable")
       ltac:(discriminate) eq_refl eq_refl eq_refl)).
Defined.

(** X5. When the adapter hands over at least one tool and the crew's run
    returns, the client prints the tool names, runs the crew, prints the
    value the run returned, leaves the adapter and ends cleanly; no error
    is reported. *)
Theorem kickoff_result_printed (w : world) (tools : list remote_tool)
    (r : string) :
  tools <> [] ->
  adapter_enter w server_params = Returned tools ->
  kickoff w (calculator_crew tools) = Returned r ->
  main w =
    ([Connect server_params;
      Print [Lit "Available tools from SSE MCP server: ";
             Fmt (VStrList (map name tools))];
      Kickoff (calculator_crew tools);
      Print [Lit (nl ++ "Calculator Crew Task Result:" ++ nl)%string;
             Lit " "; Fmt (VStr r)];
      Disconnect],
     ExitClean).
Proof.
  intros Hne Henter Hk.
  pose proof (main_paths w) as H. rewrite Henter in H.
  destruct tools as [| t ts]; [congruence |].
  rewrite Hk in H. exact H.
Qed.

Lemma kickoff_result_printed_witness :
  prints (fst (main (mkWorld
    (fun _ => Returned [mkRemote "add_numbers"; mkRemote "divide_numbers"])
    (fun _ => Returned "42, 40, 48, 25.0"))))
  = [[Lit "Available tools from SSE MCP server: ";
      Fmt (VStrList ["add_numbers"; "divide_numbers"])];
     [Lit (nl ++ "Calculator Crew Task Result:" ++ nl)%string;
      Lit " "; Fmt (VStr "42, 40, 48, 25.0")]].
Proof.
  exact (f_equal (fun x => prints (fst x))
    (kickoff_result_printed
       (mkWorld
          (fun _ => Returned [mkRemote "add_numbers"; mkRemote "divide_numbers"])
          (fun _ => Returned "42, 40, 48, 25.0"))
       [mkRemote "add_numbers"; mkRemote "divide_numbers"]
       "42, 40, 48, 25.0" ltac:(discriminate) eq_refl eq_refl)).
Defined.

(** X6. Whenever the adapter has been entered, the first line the client
    prints is the list of the names of the discovered tools, in the order
    of discovery; this holds also when the list is empty and when the
    crew's run fails afterwards. *)
Theorem listing_printed_first (w : world) (tools : list remote_tool) :
  adapter_enter w server_params = Returned tools ->
  exists rest : list fstring,
    prints (fst (main w)) =
      [Lit "Available tools from SSE MCP server: ";
       Fmt (VStrList (map name tools))] :: rest.
Proof.
  intros Henter.
  pose proof (main_paths w) as H. rewrite Henter in H.
  destruct tools as [| t ts].
  - rewrite H. eexists; reflexivity.
  - destruct (kickoff w (calculator_crew (t :: ts))) as [r | e].
    + rewrite H. eexists; reflexivity.
    + destruct (is_Exception (exn_cls e)); rewrite H; eexists; reflexivity.
Qed.

Lemma listing_printed_first_witness :
  exists rest : list fstring,
    prints (fst (main (mkWorld
      (fun _ => Returned [mkRemote "add_numbers"])
      (fun _ => Raised (mkExn KeyboardInterrupt "interrupted")))))
    = [Lit "Available tools from SSE MCP server: ";
       Fmt (VStrList ["add_numbers"])] :: rest.
Proof.
  exact (listing_printed_first
    (mkWorld (fun _ => Returned [mkRemote "add_numbers"])
             (fun _ => Raised (mkExn KeyboardInterrupt "interrupted")))
    [mkRemote "add_numbers"] eq_refl).
Defined.
